(** * LineageTrialComponent (sagemaker/lineage/lineage_trial_component.py)

    A shallow embedding of the [LineageTrialComponent] record class.  The
    object is modelled as Python models it: a session plus an instance
    [__dict__], with the class-level attribute declarations supplying the
    default [None].  Remote calls (the SageMaker client, the lineage query
    engine) are oracles; every call is appended to a call log so that the
    requests a method issues can be observed.  Methods run in a small
    state/exception monad over the record and the call log. *)

From Stdlib Require Import String List Bool Arith.
Import ListNotations.
Open Scope string_scope.
#[local] Set Warnings "-register-all".

(** ** Python values and exceptions *)

Inductive PyVal : Type :=
| PyNone
| PyStr (s : string)
| PyInt (n : nat)
| PyList (xs : list PyVal)
| PyDict (kvs : list (string * PyVal)).

Definition is_none (v : PyVal) : bool :=
  match v with PyNone => true | _ => false end.

(** Exceptions raised by the client or the lineage engine, and the
    [AttributeError] of [getattr] on an undeclared attribute. *)
Inductive PyExc : Type :=
| ValidationException
| ThrottlingException
| ResourceNotFound
| AccessDeniedException
| AttributeError (name : string).

Inductive Outcome (A : Type) : Type :=
| Ok (a : A)
| Raise (e : PyExc).
Arguments Ok {A} a.
Arguments Raise {A} e.

(** ** Dictionaries as association lists, newest binding first *)

Fixpoint dict_get {A : Type} (d : list (string * A)) (k : string) : option A :=
  match d with
  | [] => None
  | (k', v) :: rest => if String.eqb k k' then Some v else dict_get rest k
  end.

Definition dict_set (d : list (string * PyVal)) (k : string) (v : PyVal)
  : list (string * PyVal) := (k, v) :: d.

(** ** The lineage query vocabulary (sagemaker.lineage.query) *)

Inductive LineageQueryDirectionEnum : Type :=
| BOTH
| ASCENDANTS
| DESCENDANTS.

Inductive LineageEntityEnum : Type :=
| TRIAL_COMPONENT
| ACTION
| CONTEXT
| ARTIFACT.

Inductive LineageSourceEnum : Type :=
| CHECKPOINT
| DATASET
| ENDPOINT
| IMAGE
| MODEL
| MODEL_DATA
| MODEL_DEPLOYMENT
| MODEL_GROUP
| MODEL_REPLACE
| TENSORBOARD
| TRAINING_JOB
| APPROVAL
| PROCESSING_JOB
| TRANSFORM_JOB.

(** [LineageFilter(entities=..., sources=...)]; the other keyword arguments
    keep their default [None]. *)
Record LineageFilter : Type := mkLineageFilter {
  entities : list LineageEntityEnum;
  sources : list LineageSourceEnum;
  created_before : PyVal;
  created_after : PyVal;
  properties : PyVal
}.

Definition LineageFilter_make (es : list LineageEntityEnum)
    (ss : list LineageSourceEnum) : LineageFilter :=
  mkLineageFilter es ss PyNone PyNone PyNone.

(** The arguments of one [LineageQuery.query] call; [max_depth] keeps its
    default 10. *)
Record QueryRequest : Type := mkQueryRequest {
  start_arns : list PyVal;
  query_filter : LineageFilter;
  direction : LineageQueryDirectionEnum;
  include_edges : bool;
  max_depth : nat
}.

Record Vertex : Type := mkVertex {
  vertex_arn : string;
  lineage_entity : string;
  lineage_source : string
}.

Record Edge : Type := mkEdge {
  source_arn : string;
  destination_arn : string;
  association_type : string
}.

Record LineageQueryResult : Type := mkLineageQueryResult {
  edges : list Edge;
  vertices : list Vertex
}.

Record Tag : Type := mkTag { Key : string; Value : string }.

(** ** The record *)

Record Session : Type := mkSession { session_profile : string }.

(** The class body declares these attributes at class level with value
    [None]; an instance reads them through its [__dict__] first. *)
Definition declared_attributes : list string :=
  [ "trial_component_name"; "trial_component_arn"; "display_name"; "source";
    "status"; "start_time"; "end_time"; "creation_time"; "created_by";
    "last_modified_time"; "last_modified_by"; "parameters"; "input_artifacts";
    "output_artifacts"; "metrics"; "parameters_to_remove";
    "input_artifacts_to_remove"; "output_artifacts_to_remove"; "tags" ].

Record LineageTrialComponent : Type := mkLineageTrialComponent {
  sagemaker_session : Session;
  instance_dict : list (string * PyVal)
}.

Definition _boto_create_method : string := "create_trial_component".
Definition _boto_load_method : string := "describe_trial_component".
Definition _boto_update_method : string := "update_trial_component".
Definition _boto_delete_method : string := "delete_trial_component".

Definition _boto_update_members : list string :=
  [ "trial_component_name"; "display_name"; "status"; "start_time";
    "end_time"; "parameters"; "input_artifacts"; "output_artifacts";
    "parameters_to_remove"; "input_artifacts_to_remove";
    "output_artifacts_to_remove" ].

Definition _boto_delete_members : list string := [ "trial_component_name" ].

(** Attribute value of a declared attribute: instance value, else [None]. *)
Definition attr (r : LineageTrialComponent) (name : string) : PyVal :=
  match dict_get (instance_dict r) name with
  | Some v => v
  | None => PyNone
  end.

(** Python [getattr(self, name)]. *)
Definition getattr_val (r : LineageTrialComponent) (name : string)
  : Outcome PyVal :=
  match dict_get (instance_dict r) name with
  | Some v => Ok v
  | None =>
      if existsb (String.eqb name) declared_attributes then Ok PyNone
      else Raise (AttributeError name)
  end.

(** ** Remote calls and the method monad *)

Inductive Call : Type :=
| CallListTags (s : Session) (resource_arn : PyVal)
| CallQuery (s : Session) (req : QueryRequest)
| CallApi (s : Session) (method : string) (payload : list (string * PyVal)).

Record World : Type := mkWorld {
  self : LineageTrialComponent;
  calls : list Call
}.

Definition M (A : Type) : Type := World -> Outcome A * World.

Definition ret {A} (a : A) : M A := fun w => (Ok a, w).

Definition bind {A B} (m : M A) (k : A -> M B) : M B :=
  fun w =>
    match m w with
    | (Ok a, w') => k a w'
    | (Raise e, w') => (Raise e, w')
    end.

Notation "x <- m ;; k" := (bind m (fun x => k))
  (at level 61, m at next level, right associativity).

Definition get_self : M LineageTrialComponent := fun w => (Ok (self w), w).

Definition put_self (r : LineageTrialComponent) : M unit :=
  fun w => (Ok tt, mkWorld r (calls w)).

Definition log_call (c : Call) : M unit :=
  fun w => (Ok tt, mkWorld (self w) (c :: calls w)).

Definition lift {A} (o : Outcome A) : M A := fun w => (o, w).

(** [self.<name>] *)
Definition getattr (name : string) : M PyVal :=
  r <- get_self ;; lift (getattr_val r name).


Section Methods.

(** The SageMaker client's [list_tags(ResourceArn=...)["Tags"]]. *)
Variable list_tags_api : Session -> PyVal -> Outcome (list Tag).
(** The lineage engine's [LineageQuery(session).query(...)]. *)
Variable query_api : Session -> QueryRequest -> Outcome LineageQueryResult.
(** The domain objects vertices convert to, and [vertex.to_lineage_object()]. *)
Variable LineageObject : Type.
Variable to_lineage_object : Vertex -> LineageObject.

Definition list_tags (s : Session) (arn : PyVal) : M (list Tag) :=
  _ <- log_call (CallListTags s arn) ;; lift (list_tags_api s arn).

Definition lineage_query (s : Session) (req : QueryRequest)
  : M LineageQueryResult :=
  _ <- log_call (CallQuery s req) ;; lift (query_api s req).

(** The [for tag in tags] loop of [pipeline_execution_arn]. *)
Fixpoint find_pipeline_execution_tag (tags : list Tag) : option string :=
  match tags with
  | [] => None
  | tag :: rest =>
      if String.eqb (Key tag) "sagemaker:pipeline-execution-arn"
      then Some (Value tag)
      else find_pipeline_execution_tag rest
  end.

Definition pipeline_execution_arn : M (option string) :=
  r <- get_self ;;
  arn <- getattr "trial_component_arn" ;;
  tags <- list_tags (sagemaker_session r) arn ;;
  ret (find_pipeline_execution_tag tags).

(** [direction] is [None] when the caller omits the argument, and the
    Python default applies. *)
Definition dataset_artifacts (direction_arg : option LineageQueryDirectionEnum)
  : M (list LineageObject) :=
  let dir := match direction_arg with Some d => d | None => ASCENDANTS end in
  r <- get_self ;;
  let query_filter := LineageFilter_make [ARTIFACT] [DATASET] in
  arn <- getattr "trial_component_arn" ;;
  query_result <- lineage_query (sagemaker_session r)
    (mkQueryRequest [arn] query_filter dir false 10) ;;
  ret (map to_lineage_object (vertices query_result)).

Definition models (direction_arg : option LineageQueryDirectionEnum)
  : M (list LineageObject) :=
  let dir := match direction_arg with Some d => d | None => DESCENDANTS end in
  r <- get_self ;;
  let query_filter := LineageFilter_make [ARTIFACT] [MODEL] in
  arn <- getattr "trial_component_arn" ;;
  query_result <- lineage_query (sagemaker_session r)
    (mkQueryRequest [arn] query_filter dir false 10) ;;
  ret (map to_lineage_object (vertices query_result)).

End Methods.

(** ** The record base class (sagemaker.apiutils._base_types.Record)

    Modelled from the spec: the generic record base is not part of this
    file.  Following the spec ("delegate load, create, update, delete to a
    shared record-lifecycle mixin, parameterized by remote-operation names
    and by which fields participate in update/delete payloads"), a call
    reads each listed member with [getattr], transmits the populated ones
    (unset members hold [None] and are not sent), and merges the response
    into the instance dictionary.  Member names are kept as the Python
    attribute names. *)

Section Base.

(** [getattr(self.sagemaker_session.sagemaker_client, method)(payload)] *)
Variable boto_api :
  Session -> string -> list (string * PyVal) -> Outcome (list (string * PyVal)).
(** [_utils.default_session()] *)
Variable default_session : Session.

Definition api_call (s : Session) (method : string)
    (payload : list (string * PyVal)) : M (list (string * PyVal)) :=
  _ <- log_call (CallApi s method payload) ;; lift (boto_api s method payload).

(** Modelled from the spec: only populated values are transmitted. *)
Definition to_boto (vals : list (string * PyVal)) : list (string * PyVal) :=
  filter (fun kv => negb (is_none (snd kv))) vals.

Fixpoint collect_members (members : list string)
  : M (list (string * PyVal)) :=
  match members with
  | [] => ret []
  | m :: rest =>
      v <- getattr m ;;
      vs <- collect_members rest ;;
      ret ((m, v) :: vs)
  end.

(** Modelled from the spec: [self.__dict__.update(response)]. *)
Definition merge_response (d resp : list (string * PyVal))
  : list (string * PyVal) :=
  fold_left (fun acc kv => dict_set acc (fst kv) (snd kv)) resp d.

Definition with_boto (resp : list (string * PyVal)) : M unit :=
  r <- get_self ;;
  put_self (mkLineageTrialComponent (sagemaker_session r)
              (merge_response (instance_dict r) resp)).

(** Modelled from the spec: [Record._invoke_api(method, members)]. *)
Definition _invoke_api (method : string) (members : list string)
  : M LineageTrialComponent :=
  vals <- collect_members members ;;
  r <- get_self ;;
  resp <- api_call (sagemaker_session r) method (to_boto vals) ;;
  _ <- with_boto resp ;;
  get_self.

(** Modelled from the spec: the update call sends the allow-list
    [_boto_update_members]. *)
Definition _update : M LineageTrialComponent :=
  _invoke_api _boto_update_method _boto_update_members.

(** Modelled from the spec: the delete call sends [_boto_delete_members]. *)
Definition _delete : M LineageTrialComponent :=
  _invoke_api _boto_delete_method _boto_delete_members.

(** Modelled from the spec: [Record._construct(method, sagemaker_session,
    **kwargs)] builds a fresh instance from [kwargs] (it becomes the object
    the monad acts on), sends [kwargs] to [method] and merges the
    response. *)
Definition _construct (method : string) (sagemaker_session_arg : option Session)
    (kwargs : list (string * PyVal)) : M LineageTrialComponent :=
  let sess := match sagemaker_session_arg with
              | Some s => s
              | None => default_session
              end in
  _ <- put_self (mkLineageTrialComponent sess kwargs) ;;
  resp <- api_call sess method (to_boto kwargs) ;;
  _ <- with_boto resp ;;
  get_self.

(** [LineageTrialComponent.load] *)
Definition load (trial_component_name : string)
    (sagemaker_session_arg : option Session) : M LineageTrialComponent :=
  _construct _boto_load_method sagemaker_session_arg
    [("trial_component_name", PyStr trial_component_name)].

End Base.

(** ** The remote store

    Modelled from the spec: the remote describe operation.  "fetches the
    remote resource by name using the describe-operation; fails with a
    NotFound-class error if the name does not exist, or an
    Unauthorized-class error on insufficient permission".  The store maps a
    trial component name to the fields the describe call returns. *)
Record RemoteStore : Type := mkRemoteStore {
  store : list (string * list (string * PyVal));
  permitted : Session -> string -> bool
}.

Definition remote_service (R : RemoteStore) (s : Session) (method : string)
    (payload : list (string * PyVal)) : Outcome (list (string * PyVal)) :=
  if negb (permitted R s method) then Raise AccessDeniedException
  else if String.eqb method "describe_trial_component" then
    match dict_get payload "trial_component_name" with
    | Some (PyStr n) =>
        match dict_get (store R) n with
        | Some resp => Ok resp
        | None => Raise ResourceNotFound
        end
    | _ => Raise ValidationException
    end
  else Ok [].

(** ** Running the methods *)

Lemma getattr_declared (name : string) (w : World) :
  existsb (String.eqb name) declared_attributes = true ->
  getattr name w = (Ok (attr (self w) name), w).
Proof.
  intros H. unfold getattr, bind, get_self, lift, getattr_val, attr.
  destruct (dict_get (instance_dict (self w)) name); [reflexivity|].
  rewrite H. reflexivity.
Qed.

Lemma getattr_arn (w : World) :
  getattr "trial_component_arn" w =
  (Ok (attr (self w) "trial_component_arn"), w).
Proof. apply getattr_declared. reflexivity. Qed.

Lemma getattr_name (w : World) :
  getattr "trial_component_name" w =
  (Ok (attr (self w) "trial_component_name"), w).
Proof. apply getattr_declared. reflexivity. Qed.

Lemma pipeline_execution_arn_run list_tags_api (w : World) :
  pipeline_execution_arn list_tags_api w =
  (match list_tags_api (sagemaker_session (self w))
           (attr (self w) "trial_component_arn") with
   | Ok tags => Ok (find_pipeline_execution_tag tags)
   | Raise e => Raise e
   end,
   mkWorld (self w)
     (CallListTags (sagemaker_session (self w))
        (attr (self w) "trial_component_arn") :: calls w)).
Proof.
  unfold pipeline_execution_arn. unfold bind at 1. simpl.
  unfold bind at 1. rewrite getattr_arn.
  unfold list_tags, bind, log_call, lift, ret. simpl.
  destruct (list_tags_api _ _); reflexivity.
Qed.

(** The request both artifact queries send, for a source filter [src]. *)
Definition artifact_request (r : LineageTrialComponent)
    (src : LineageSourceEnum) (d : LineageQueryDirectionEnum) : QueryRequest :=
  mkQueryRequest [attr r "trial_component_arn"]
    (LineageFilter_make [ARTIFACT] [src]) d false 10.

Lemma dataset_artifacts_run query_api LO (conv : Vertex -> LO) d w :
  dataset_artifacts query_api LO conv (Some d) w =
  (match query_api (sagemaker_session (self w))
           (artifact_request (self w) DATASET d) with
   | Ok res => Ok (map conv (vertices res))
   | Raise e => Raise e
   end,
   mkWorld (self w)
     (CallQuery (sagemaker_session (self w))
        (artifact_request (self w) DATASET d) :: calls w)).
Proof.
  unfold dataset_artifacts. unfold bind at 1. simpl.
  unfold bind at 1. rewrite getattr_arn.
  unfold lineage_query, bind, log_call, lift, ret. simpl.
  destruct (query_api _ _); reflexivity.
Qed.

Lemma models_run query_api LO (conv : Vertex -> LO) d w :
  models query_api LO conv (Some d) w =
  (match query_api (sagemaker_session (self w))
           (artifact_request (self w) MODEL d) with
   | Ok res => Ok (map conv (vertices res))
   | Raise e => Raise e
   end,
   mkWorld (self w)
     (CallQuery (sagemaker_session (self w))
        (artifact_request (self w) MODEL d) :: calls w)).
Proof.
  unfold models. unfold bind at 1. simpl.
  unfold bind at 1. rewrite getattr_arn.
  unfold lineage_query, bind, log_call, lift, ret. simpl.
  destruct (query_api _ _); reflexivity.
Qed.

Lemma find_pipeline_execution_tag_find (tags : list Tag) :
  find_pipeline_execution_tag tags =
  option_map Value
    (find (fun t => String.eqb (Key t) "sagemaker:pipeline-execution-arn")
       tags).
Proof.
  induction tags as [|t rest IH]; simpl; [reflexivity|].
  destruct (String.eqb (Key t) _); [reflexivity|exact IH].
Qed.

Lemma find_pipeline_execution_tag_first (pre : list Tag) (t : Tag) post :
  Key t = "sagemaker:pipeline-execution-arn" ->
  Forall (fun t' => Key t' <> "sagemaker:pipeline-execution-arn") pre ->
  find_pipeline_execution_tag (pre ++ t :: post)%list = Some (Value t).
Proof.
  intros Hk Hpre. induction Hpre as [|t' pre' Ht' _ IH]; simpl.
  - rewrite Hk. reflexivity.
  - apply String.eqb_neq in Ht'. rewrite Ht'. exact IH.
Qed.

Lemma find_pipeline_execution_tag_none (tags : list Tag) :
  (forall t, In t tags -> Key t <> "sagemaker:pipeline-execution-arn") ->
  find_pipeline_execution_tag tags = None.
Proof.
  induction tags as [|t rest IH]; intros H; simpl; [reflexivity|].
  assert (Ht : Key t <> "sagemaker:pipeline-execution-arn")
    by (apply H; left; reflexivity).
  apply String.eqb_neq in Ht. rewrite Ht.
  apply IH. intros t' Hin. apply H. right. exact Hin.
Qed.

(** Test oracles and a sample record. *)
Definition sess0 : Session := mkSession "default".

Definition tc0 : LineageTrialComponent :=
  mkLineageTrialComponent sess0
    [("trial_component_name", PyStr "tc-1");
     ("trial_component_arn", PyStr "arn:tc-1");
     ("display_name", PyStr "Training")].

Definition w0 : World := mkWorld tc0 [].

Definition tags0 : list Tag :=
  [mkTag "owner" "alice";
   mkTag "sagemaker:pipeline-execution-arn" "arn:exec-1";
   mkTag "sagemaker:pipeline-execution-arn" "arn:exec-2"].

Example pipeline_execution_arn_tags0 :
  fst (pipeline_execution_arn (fun _ _ => Ok tags0) w0) = Ok (Some "arn:exec-1").
Proof. reflexivity. Qed.

Example pipeline_execution_arn_no_tag :
  fst (pipeline_execution_arn (fun _ _ => Ok [mkTag "owner" "alice"]) w0)
  = Ok None.
Proof. reflexivity. Qed.

Definition all_declared (ms : list string) : Prop :=
  Forall (fun m => existsb (String.eqb m) declared_attributes = true) ms.

Lemma collect_members_run (ms : list string) (w : World) :
  all_declared ms ->
  collect_members ms w = (Ok (map (fun m => (m, attr (self w) m)) ms), w).
Proof.
  intros H. induction H as [|m ms Hm _ IH]; [reflexivity|].
  simpl. unfold bind at 1. rewrite (getattr_declared m w Hm).
  unfold bind. rewrite IH. reflexivity.
Qed.

Lemma _invoke_api_run boto_api (method : string) (ms : list string)
    (w : World) :
  all_declared ms ->
  let s := sagemaker_session (self w) in
  let payload := to_boto (map (fun m => (m, attr (self w) m)) ms) in
  _invoke_api boto_api method ms w =
  match boto_api s method payload with
  | Ok resp =>
      let r' := mkLineageTrialComponent s
                  (merge_response (instance_dict (self w)) resp) in
      (Ok r', mkWorld r' (CallApi s method payload :: calls w))
  | Raise e => (Raise e, mkWorld (self w) (CallApi s method payload :: calls w))
  end.
Proof.
  intros H s payload. unfold _invoke_api. unfold bind at 1.
  rewrite (collect_members_run ms w H).
  unfold api_call, with_boto, bind, get_self, log_call, lift, put_self.
  simpl. fold s. fold payload.
  destruct (boto_api s method payload); reflexivity.
Qed.

Lemma _invoke_api_calls boto_api method ms w :
  all_declared ms ->
  calls (snd (_invoke_api boto_api method ms w)) =
  CallApi (sagemaker_session (self w)) method
    (to_boto (map (fun m => (m, attr (self w) m)) ms)) :: calls w.
Proof.
  intros H. rewrite (_invoke_api_run boto_api method ms w H).
  destruct (boto_api _ _ _); reflexivity.
Qed.

Lemma load_run boto_api default_session n sarg w :
  let s := match sarg with Some s => s | None => default_session end in
  let payload := [("trial_component_name", PyStr n)] in
  load boto_api default_session n sarg w =
  match boto_api s "describe_trial_component" payload with
  | Ok resp =>
      let r' := mkLineageTrialComponent s (merge_response payload resp) in
      (Ok r', mkWorld r' (CallApi s "describe_trial_component" payload
                            :: calls w))
  | Raise e =>
      (Raise e, mkWorld (mkLineageTrialComponent s payload)
                  (CallApi s "describe_trial_component" payload :: calls w))
  end.
Proof.
  intros s payload. unfold load, _construct.
  unfold api_call, with_boto, bind, get_self, log_call, lift, put_self.
  simpl. fold s. destruct (boto_api s _ _); reflexivity.
Qed.

Lemma merge_response_rev (d resp : list (string * PyVal)) :
  merge_response d resp = (rev resp ++ d)%list.
Proof.
  unfold merge_response, dict_set.
  revert d. induction resp as [|[k v] rest IH]; intros d; [reflexivity|].
  simpl. rewrite IH, <- app_assoc. reflexivity.
Qed.

Lemma dict_get_app_in (l d : list (string * PyVal)) (k : string) (v : PyVal) :
  NoDup (map fst l) -> In (k, v) l -> dict_get (l ++ d)%list k = Some v.
Proof.
  induction l as [|[k' v'] rest IH]; simpl; intros Hnd Hin; [contradiction|].
  inversion Hnd as [|x xs Hnot Hnd' Heq]; subst.
  destruct Hin as [Heq|Hin].
  - injection Heq as -> ->. rewrite String.eqb_refl. reflexivity.
  - assert (Hk : k <> k').
    { intros ->. apply Hnot. apply in_map_iff. exists (k', v). split; auto. }
    apply String.eqb_neq in Hk. rewrite Hk. apply IH; assumption.
Qed.

Lemma dict_get_app_uniform (l d : list (string * PyVal)) (k : string) x :
  (forall v, In (k, v) l -> v = x) ->
  dict_get d k = Some x -> dict_get (l ++ d)%list k = Some x.
Proof.
  induction l as [|[k' v'] rest IH]; simpl; intros Hl Hd; [exact Hd|].
  destruct (String.eqb k k') eqn:E.
  - apply String.eqb_eq in E. subst k'. f_equal. apply Hl. left. reflexivity.
  - apply IH; [|exact Hd]. intros v Hin. apply Hl. right. exact Hin.
Qed.

(** Frame lemmas: the query methods never write the record. *)
Lemma pipeline_execution_arn_self list_tags_api w :
  self (snd (pipeline_execution_arn list_tags_api w)) = self w.
Proof. rewrite pipeline_execution_arn_run. reflexivity. Qed.

Lemma dataset_artifacts_self query_api LO (conv : Vertex -> LO) darg w :
  self (snd (dataset_artifacts query_api LO conv darg w)) = self w.
Proof.
  destruct darg as [d|];
    [|change (dataset_artifacts query_api LO conv None w)
       with (dataset_artifacts query_api LO conv (Some ASCENDANTS) w)];
    rewrite dataset_artifacts_run; reflexivity.
Qed.

Lemma models_self query_api LO (conv : Vertex -> LO) darg w :
  self (snd (models query_api LO conv darg w)) = self w.
Proof.
  destruct darg as [d|];
    [|change (models query_api LO conv None w)
       with (models query_api LO conv (Some DESCENDANTS) w)];
    rewrite models_run; reflexivity.
Qed.






(** Refinement target for the two artifact queries, following the spec's
    description: build a filter for entities of kind artifact whose source
    type is [src], run one traversal from this record's ARN in direction
    [d] without edges (at the engine's default depth), and map every
    returned vertex to its domain object in order; a failing traversal
    fails the call. *)
Definition artifacts_by_source_spec
    (query_api : Session -> QueryRequest -> Outcome LineageQueryResult)
    (LO : Type) (conv : Vertex -> LO) (src : LineageSourceEnum)
    (d : LineageQueryDirectionEnum) : M (list LO) :=
  fun w =>
    let s := sagemaker_session (self w) in
    let req := mkQueryRequest [attr (self w) "trial_component_arn"]
                 (mkLineageFilter [ARTIFACT] [src] PyNone PyNone PyNone)
                 d false 10 in
    let w' := mkWorld (self w) (CallQuery s req :: calls w) in
    match query_api s req with
    | Ok res => (Ok (map conv (vertices res)), w')
    | Raise e => (Raise e, w')
    end.

(** Sample lineage engine: two dataset vertices upstream, one model
    downstream, and a validation failure for [BOTH]. *)
Definition engine0 (s : Session) (req : QueryRequest)
  : Outcome LineageQueryResult :=
  match direction req with
  | BOTH => Raise ValidationException
  | ASCENDANTS =>
      Ok (mkLineageQueryResult []
            [mkVertex "arn:ds-1" "Artifact" "DataSet";
             mkVertex "arn:ds-2" "Artifact" "DataSet"])
  | DESCENDANTS =>
      Ok (mkLineageQueryResult [] [mkVertex "arn:model-1" "Artifact" "Model"])
  end.

Example dataset_artifacts_engine0 :
  fst (dataset_artifacts engine0 string vertex_arn None w0)
  = Ok ["arn:ds-1"; "arn:ds-2"].
Proof. reflexivity. Qed.

Example models_engine0_both :
  fst (models engine0 string vertex_arn (Some BOTH) w0)
  = Raise ValidationException.
Proof. reflexivity. Qed.

(** ** Claims *)

(** C1: for every tag list [tags] that [list_tags] returns for this
    record's ARN, [pipeline_execution_arn()] returns the value of the first
    tag (in the returned order) keyed
    "sagemaker:pipeline-execution-arn"; it returns [None] when no tag has
    that key; with several such tags, the first one's value wins. *)
Theorem pipeline_execution_arn_first_match
    (list_tags_api : Session -> PyVal -> Outcome (list Tag)) (w : World)
    (tags : list Tag)
    (Htags : list_tags_api (sagemaker_session (self w))
               (attr (self w) "trial_component_arn") = Ok tags) :
  fst (pipeline_execution_arn list_tags_api w) =
    Ok (option_map Value
          (find (fun t => String.eqb (Key t) "sagemaker:pipeline-execution-arn")
             tags))
  /\ (forall pre t post,
        tags = (pre ++ t :: post)%list ->
        Key t = "sagemaker:pipeline-execution-arn" ->
        Forall (fun t' => Key t' <> "sagemaker:pipeline-execution-arn") pre ->
        fst (pipeline_execution_arn list_tags_api w) = Ok (Some (Value t)))
  /\ ((forall t, In t tags -> Key t <> "sagemaker:pipeline-execution-arn") ->
      fst (pipeline_execution_arn list_tags_api w) = Ok None).
Proof.
  rewrite pipeline_execution_arn_run, Htags. simpl.
  split; [|split].
  - rewrite find_pipeline_execution_tag_find. reflexivity.
  - intros pre t post -> Hk Hpre.
    rewrite (find_pipeline_execution_tag_first pre t post Hk Hpre).
    reflexivity.
  - intros Hnone. rewrite (find_pipeline_execution_tag_none tags Hnone).
    reflexivity.
Qed.

Lemma pipeline_execution_arn_first_match_witness :
  (fun (_ : Session) (_ : PyVal) => Ok tags0) (sagemaker_session (self w0))
    (attr (self w0) "trial_component_arn") = Ok tags0
  /\ fst (pipeline_execution_arn (fun _ _ => Ok tags0) w0) =
       Ok (option_map Value
             (find (fun t =>
                      String.eqb (Key t) "sagemaker:pipeline-execution-arn")
                tags0)).
Proof.
  split; [reflexivity|].
  apply (pipeline_execution_arn_first_match (fun _ _ => Ok tags0) w0 tags0).
  reflexivity.
Defined.

(** C2: for every direction [d], if the lineage engine answers the request
    with result [r], [dataset_artifacts(direction=d)] issues exactly one
    traversal request (start_arns = [this record's ARN], entities
    {ARTIFACT}, sources {DATASET}, direction [d], include_edges=False),
    returns the vertices of [r] mapped through [to_lineage_object] in
    order, and so returns [] when [r] has no vertices. *)
Theorem dataset_artifacts_single_request
    (query_api : Session -> QueryRequest -> Outcome LineageQueryResult)
    (LO : Type) (conv : Vertex -> LO) (d : LineageQueryDirectionEnum)
    (w : World) (r : LineageQueryResult)
    (Hq : query_api (sagemaker_session (self w))
            (mkQueryRequest [attr (self w) "trial_component_arn"]
               (mkLineageFilter [ARTIFACT] [DATASET] PyNone PyNone PyNone)
               d false 10) = Ok r) :
  dataset_artifacts query_api LO conv (Some d) w =
    (Ok (map conv (vertices r)),
     mkWorld (self w)
       (CallQuery (sagemaker_session (self w))
          (mkQueryRequest [attr (self w) "trial_component_arn"]
             (mkLineageFilter [ARTIFACT] [DATASET] PyNone PyNone PyNone)
             d false 10) :: calls w))
  /\ (vertices r = [] ->
      fst (dataset_artifacts query_api LO conv (Some d) w) = Ok []).
Proof.
  rewrite dataset_artifacts_run. unfold artifact_request, LineageFilter_make.
  rewrite Hq. split; [reflexivity|].
  intros Hv. simpl. rewrite Hv. reflexivity.
Qed.

Lemma dataset_artifacts_single_request_witness :
  engine0 sess0 (mkQueryRequest [PyStr "arn:tc-1"]
                   (mkLineageFilter [ARTIFACT] [DATASET] PyNone PyNone PyNone)
                   ASCENDANTS false 10)
  = Ok (mkLineageQueryResult []
          [mkVertex "arn:ds-1" "Artifact" "DataSet";
           mkVertex "arn:ds-2" "Artifact" "DataSet"])
  /\ fst (dataset_artifacts engine0 string vertex_arn (Some ASCENDANTS) w0)
     = Ok ["arn:ds-1"; "arn:ds-2"].
Proof.
  split; [reflexivity|].
  destruct (dataset_artifacts_single_request engine0 string vertex_arn
              ASCENDANTS w0
              (mkLineageQueryResult []
                 [mkVertex "arn:ds-1" "Artifact" "DataSet";
                  mkVertex "arn:ds-2" "Artifact" "DataSet"])
              eq_refl) as [H _].
  rewrite H. reflexivity.
Defined.

(** C3: with the direction omitted, [models()] traverses DESCENDANTS with
    source filter {MODEL} and [dataset_artifacts()] traverses ASCENDANTS;
    an explicit direction overrides the default, e.g.
    [models(direction=ASCENDANTS)] traverses ASCENDANTS. *)
Theorem query_direction_defaults
    (query_api : Session -> QueryRequest -> Outcome LineageQueryResult)
    (LO : Type) (conv : Vertex -> LO) (w : World) :
  let s := sagemaker_session (self w) in
  let arn := attr (self w) "trial_component_arn" in
  calls (snd (models query_api LO conv None w)) =
    CallQuery s (mkQueryRequest [arn]
                   (mkLineageFilter [ARTIFACT] [MODEL] PyNone PyNone PyNone)
                   DESCENDANTS false 10) :: calls w
  /\ calls (snd (dataset_artifacts query_api LO conv None w)) =
    CallQuery s (mkQueryRequest [arn]
                   (mkLineageFilter [ARTIFACT] [DATASET] PyNone PyNone PyNone)
                   ASCENDANTS false 10) :: calls w
  /\ (forall d,
        calls (snd (models query_api LO conv (Some d) w)) =
          CallQuery s (mkQueryRequest [arn]
                         (mkLineageFilter [ARTIFACT] [MODEL]
                            PyNone PyNone PyNone) d false 10) :: calls w
        /\ calls (snd (dataset_artifacts query_api LO conv (Some d) w)) =
          CallQuery s (mkQueryRequest [arn]
                         (mkLineageFilter [ARTIFACT] [DATASET]
                            PyNone PyNone PyNone) d false 10) :: calls w)
  /\ calls (snd (models query_api LO conv (Some ASCENDANTS) w)) =
    CallQuery s (mkQueryRequest [arn]
                   (mkLineageFilter [ARTIFACT] [MODEL] PyNone PyNone PyNone)
                   ASCENDANTS false 10) :: calls w.
Proof.
  intros s arn.
  change (models query_api LO conv None w)
    with (models query_api LO conv (Some DESCENDANTS) w).
  change (dataset_artifacts query_api LO conv None w)
    with (dataset_artifacts query_api LO conv (Some ASCENDANTS) w).
  repeat split; intros;
    rewrite ?models_run, ?dataset_artifacts_run;
    destruct (query_api _ _); reflexivity.
Qed.

(** C4: for every direction [d] and every lineage engine, [models] and
    [dataset_artifacts] are the same traversal up to the source filter:
    each equals the spec's artifact query with source {MODEL}, resp.
    {DATASET}, same start ARNs, entity filter {ARTIFACT}, direction [d],
    no edges, and the same vertex conversion. *)
Theorem models_dataset_artifacts_same_shape
    (query_api : Session -> QueryRequest -> Outcome LineageQueryResult)
    (LO : Type) (conv : Vertex -> LO) (d : LineageQueryDirectionEnum)
    (w : World) :
  dataset_artifacts query_api LO conv (Some d) w =
    artifacts_by_source_spec query_api LO conv DATASET d w
  /\ models query_api LO conv (Some d) w =
    artifacts_by_source_spec query_api LO conv MODEL d w.
Proof.
  rewrite dataset_artifacts_run, models_run.
  unfold artifacts_by_source_spec, artifact_request, LineageFilter_make.
  split; destruct (query_api _ _); reflexivity.
Qed.

(** C5: when the lineage engine raises [e] on the traversal request,
    [dataset_artifacts] and [models] raise the same [e], after exactly one
    traversal request (no retry) and without returning any list. *)
Theorem query_errors_propagate
    (query_api : Session -> QueryRequest -> Outcome LineageQueryResult)
    (LO : Type) (conv : Vertex -> LO) (d : LineageQueryDirectionEnum)
    (w : World) (e : PyExc) :
  let s := sagemaker_session (self w) in
  (query_api s (artifact_request (self w) DATASET d) = Raise e ->
   dataset_artifacts query_api LO conv (Some d) w =
     (Raise e, mkWorld (self w)
                 (CallQuery s (artifact_request (self w) DATASET d)
                    :: calls w)))
  /\ (query_api s (artifact_request (self w) MODEL d) = Raise e ->
   models query_api LO conv (Some d) w =
     (Raise e, mkWorld (self w)
                 (CallQuery s (artifact_request (self w) MODEL d)
                    :: calls w))).
Proof.
  intros s. split; intros He;
    [rewrite dataset_artifacts_run | rewrite models_run];
    fold s; rewrite He; reflexivity.
Qed.

Lemma query_errors_propagate_witness :
  engine0 sess0 (artifact_request tc0 DATASET BOTH) = Raise ValidationException
  /\ dataset_artifacts engine0 string vertex_arn (Some BOTH) w0 =
     (Raise ValidationException,
      mkWorld tc0 [CallQuery sess0 (artifact_request tc0 DATASET BOTH)]).
Proof.
  split; [reflexivity|].
  apply (proj1 (query_errors_propagate engine0 string vertex_arn BOTH w0
                  ValidationException)).
  reflexivity.
Defined.

(** C6: the declared delete-payload list is exactly
    ["trial_component_name"], and for every record the delete call
    transmits a payload whose only field is [trial_component_name] (with
    the record's value), whatever else is populated. *)
Theorem _delete_sends_only_name
    (boto_api : Session -> string -> list (string * PyVal) ->
                Outcome (list (string * PyVal)))
    (w : World) :
  _boto_delete_members = ["trial_component_name"]
  /\ exists payload,
       calls (snd (_delete boto_api w)) =
         CallApi (sagemaker_session (self w)) "delete_trial_component" payload
           :: calls w
       /\ (forall k v, In (k, v) payload ->
             k = "trial_component_name"
             /\ v = attr (self w) "trial_component_name").
Proof.
  split; [reflexivity|].
  exists (to_boto [("trial_component_name", attr (self w) "trial_component_name")]).
  split.
  - unfold _delete. rewrite _invoke_api_calls; [reflexivity|].
    repeat constructor.
  - intros k v Hin. unfold to_boto in Hin. apply filter_In in Hin.
    destruct Hin as [[Heq|[]] _]. injection Heq as <- <-. split; reflexivity.
Qed.

(** C7: every field the update call transmits is in [_boto_update_members]
    and carries the record's value; every populated allow-listed field
    (the [*_to_remove] lists among them) is transmitted; and for every
    record [trial_component_arn] is never transmitted. *)
Theorem _update_sends_allow_list
    (boto_api : Session -> string -> list (string * PyVal) ->
                Outcome (list (string * PyVal)))
    (w : World) :
  exists payload,
    calls (snd (_update boto_api w)) =
      CallApi (sagemaker_session (self w)) "update_trial_component" payload
        :: calls w
    /\ (forall k v, In (k, v) payload ->
          In k _boto_update_members /\ v = attr (self w) k /\ v <> PyNone)
    /\ (forall k, In k _boto_update_members -> attr (self w) k <> PyNone ->
          In (k, attr (self w) k) payload)
    /\ ~ In "trial_component_arn" (map fst payload).
Proof.
  exists (to_boto (map (fun m => (m, attr (self w) m)) _boto_update_members)).
  assert (Hpay : forall k v,
            In (k, v) (to_boto (map (fun m => (m, attr (self w) m))
                                  _boto_update_members)) ->
            In k _boto_update_members /\ v = attr (self w) k /\ v <> PyNone).
  { intros k v Hin. unfold to_boto in Hin. apply filter_In in Hin.
    destruct Hin as [Hin Hnn]. apply in_map_iff in Hin.
    destruct Hin as [m [Heq Hm]]. injection Heq as <- <-.
    split; [exact Hm|split; [reflexivity|]].
    simpl in Hnn. intros Hn. rewrite Hn in Hnn. discriminate. }
  split; [|split; [exact Hpay|split]].
  - unfold _update. rewrite _invoke_api_calls; [reflexivity|].
    repeat constructor.
  - intros k Hk Hnn. unfold to_boto. apply filter_In. split.
    + apply in_map_iff. exists k. split; [reflexivity|exact Hk].
    + simpl. destruct (attr (self w) k); [contradiction|reflexivity..].
  - intros Hin. apply in_map_iff in Hin. destruct Hin as [[k v] [Hk Hin]].
    simpl in Hk. subst k. apply Hpay in Hin. destruct Hin as [Hm _].
    simpl in Hm. repeat (destruct Hm as [Hm|Hm]; [discriminate|]). exact Hm.
Qed.

(** Sample remote stores: one that grants every operation, one that denies
    every operation; both hold the trial component "tc-1". *)
Definition resp1 : list (string * PyVal) :=
  [("trial_component_name", PyStr "tc-1");
   ("trial_component_arn", PyStr "arn:tc-1");
   ("status", PyDict [("PrimaryStatus", PyStr "Completed")])].

Definition R1 : RemoteStore :=
  mkRemoteStore [("tc-1", resp1)] (fun _ _ => true).

Definition R_denied : RemoteStore :=
  mkRemoteStore [("tc-1", resp1)] (fun _ _ => false).

Definition w_empty : World := mkWorld (mkLineageTrialComponent sess0 []) [].

Example load_R1 :
  attr (self (snd (load (remote_service R1) sess0 "tc-1" None w_empty)))
    "trial_component_arn" = PyStr "arn:tc-1".
Proof. reflexivity. Qed.

Example load_R1_missing :
  fst (load (remote_service R1) sess0 "tc-2" None w_empty) = Raise ResourceNotFound.
Proof. reflexivity. Qed.

(** C8 (counterexample): the store holds "tc-1", but for a session without
    permission for the describe operation [load("tc-1", s)] raises
    AccessDenied and returns no record named "tc-1". *)
Lemma load_denied_session :
  dict_get (store R_denied) "tc-1" = Some resp1
  /\ fst (load (remote_service R_denied) sess0 "tc-1" (Some sess0) w_empty)
     = Raise AccessDeniedException
  /\ ~ (exists r,
          fst (load (remote_service R_denied) sess0 "tc-1" (Some sess0) w_empty)
          = Ok r /\ attr r "trial_component_name" = PyStr "tc-1").
Proof.
  split; [reflexivity|split; [reflexivity|]].
  intros [r [H _]]. discriminate H.
Qed.

(** C8 (amended): for a session permitted to call describe_trial_component,
    if the store holds [n] (whose stored name, if recorded, is [n]),
    [load(n, s)] makes exactly one describe_trial_component call with
    payload {trial_component_name: n} and returns a record bound to the
    session, named [n], holding every field of the describe response; if
    the store does not hold [n], [load] raises ResourceNotFound.  For a
    session without that permission [load(n, s)] raises AccessDenied,
    whether or not the store holds [n]. *)
Theorem load_describe (R : RemoteStore) (default_session : Session)
    (n : string) (sarg : option Session) (w : World) :
  let s := match sarg with Some s => s | None => default_session end in
  (permitted R s "describe_trial_component" = true ->
   (forall resp,
      dict_get (store R) n = Some resp ->
      (forall v, In ("trial_component_name", v) resp -> v = PyStr n) ->
      exists r,
        load (remote_service R) default_session n sarg w =
          (Ok r, mkWorld r (CallApi s "describe_trial_component"
                              [("trial_component_name", PyStr n)] :: calls w))
        /\ sagemaker_session r = s
        /\ attr r "trial_component_name" = PyStr n
        /\ (NoDup (map fst resp) ->
            forall k v, In (k, v) resp -> attr r k = v))
   /\ (dict_get (store R) n = None ->
       fst (load (remote_service R) default_session n sarg w)
       = Raise ResourceNotFound))
  /\ (permitted R s "describe_trial_component" = false ->
      fst (load (remote_service R) default_session n sarg w)
      = Raise AccessDeniedException).
Proof.
  intros s. split.
  - intros Hperm.
    assert (Hsvc : remote_service R s "describe_trial_component"
                     [("trial_component_name", PyStr n)] =
                   match dict_get (store R) n with
                   | Some resp => Ok resp
                   | None => Raise ResourceNotFound
                   end).
    { unfold remote_service. rewrite Hperm. reflexivity. }
    split.
    + intros resp Hget Hname. rewrite load_run. fold s. rewrite Hsvc, Hget.
      eexists. split; [reflexivity|]. split; [reflexivity|].
      unfold attr. simpl. rewrite merge_response_rev. split.
      * rewrite (dict_get_app_uniform (rev resp) _ _ (PyStr n));
          [reflexivity| |].
        -- intros v Hin. apply Hname. apply in_rev. exact Hin.
        -- reflexivity.
      * intros Hnd k v Hin.
        rewrite (dict_get_app_in (rev resp) _ k v); [reflexivity| |].
        -- rewrite map_rev. apply NoDup_rev. exact Hnd.
        -- apply in_rev. rewrite rev_involutive. exact Hin.
    + intros Hnone. rewrite load_run. fold s. rewrite Hsvc, Hnone.
      reflexivity.
  - intros Hdeny. rewrite load_run. fold s.
    unfold remote_service. rewrite Hdeny. reflexivity.
Qed.

Lemma load_describe_witness :
  permitted R1 sess0 "describe_trial_component" = true
  /\ fst (load (remote_service R1) sess0 "tc-2" (Some sess0) w_empty)
     = Raise ResourceNotFound
  /\ permitted R_denied sess0 "describe_trial_component" = false
  /\ fst (load (remote_service R_denied) sess0 "tc-1" (Some sess0) w_empty)
     = Raise AccessDeniedException.
Proof.
  split; [reflexivity|]. split.
  - apply (proj2 (proj1 (load_describe R1 sess0 "tc-2" (Some sess0) w_empty)
                    eq_refl)).
    reflexivity.
  - split; [reflexivity|].
    apply (proj2 (load_describe R_denied sess0 "tc-1" (Some sess0) w_empty)).
    reflexivity.
Defined.



(** C10: [pipeline_execution_arn()], [dataset_artifacts(direction)] and
    [models(direction)] leave the record unchanged, for every record, every
    direction argument (given or omitted) and every result or error of the
    remote calls. *)
Theorem query_methods_frame
    (list_tags_api : Session -> PyVal -> Outcome (list Tag))
    (query_api : Session -> QueryRequest -> Outcome LineageQueryResult)
    (LO : Type) (conv : Vertex -> LO)
    (darg marg : option LineageQueryDirectionEnum) (w : World) :
  self (snd (pipeline_execution_arn list_tags_api w)) = self w
  /\ self (snd (dataset_artifacts query_api LO conv darg w)) = self w
  /\ self (snd (models query_api LO conv marg w)) = self w.
Proof.
  split; [apply pipeline_execution_arn_self|].
  split; [apply dataset_artifacts_self|apply models_self].
Qed.

(** ** Further properties of the class *)

(** [pipeline_execution_arn] makes exactly one [list_tags] call, on the
    record's session with the record's ARN, whatever that call returns or
    raises; an error of that call propagates unchanged (the loop is never
    reached), and a tag list is scanned by the loop. *)
Theorem pipeline_execution_arn_list_tags_error
    (list_tags_api : Session -> PyVal -> Outcome (list Tag)) (w : World) :
  let s := sagemaker_session (self w) in
  let arn := attr (self w) "trial_component_arn" in
  calls (snd (pipeline_execution_arn list_tags_api w))
    = CallListTags s arn :: calls w
  /\ self (snd (pipeline_execution_arn list_tags_api w)) = self w
  /\ (forall e, list_tags_api s arn = Raise e ->
      fst (pipeline_execution_arn list_tags_api w) = Raise e)
  /\ (forall tags, list_tags_api s arn = Ok tags ->
      fst (pipeline_execution_arn list_tags_api w)
      = Ok (find_pipeline_execution_tag tags)).
Proof.
  intros s arn. rewrite pipeline_execution_arn_run. fold s arn.
  split; [destruct (list_tags_api s arn); reflexivity|].
  split; [destruct (list_tags_api s arn); reflexivity|].
  split; intros x Hx; rewrite Hx; reflexivity.
Qed.

Example update_response_overwrites_arn :
  attr (self (snd (_update (fun _ _ _ => Ok [("trial_component_arn",
                                             PyStr "arn:new")]) w0)))
    "trial_component_arn" = PyStr "arn:new".
Proof. reflexivity. Qed.

Lemma pipeline_execution_arn_list_tags_error_witness :
  (fun (_ : Session) (_ : PyVal) => @Raise (list Tag) ThrottlingException)
    sess0 (PyStr "arn:tc-1") = Raise ThrottlingException
  /\ fst (pipeline_execution_arn (fun _ _ => Raise ThrottlingException) w0) =
     Raise ThrottlingException.
Proof.
  split; [reflexivity|].
  apply (proj1 (proj2 (proj2 (pipeline_execution_arn_list_tags_error
           (fun _ _ => Raise ThrottlingException) w0)))).
  reflexivity.
Defined.

(** None of the three query methods checks that the record has an ARN: on
    a record whose [trial_component_arn] was never set, [list_tags] is
    called with [ResourceArn=None] and the traversal starts from [[None]]. *)
Theorem query_methods_unset_arn
    (list_tags_api : Session -> PyVal -> Outcome (list Tag))
    (query_api : Session -> QueryRequest -> Outcome LineageQueryResult)
    (LO : Type) (conv : Vertex -> LO)
    (darg marg : option LineageQueryDirectionEnum) (w : World)
    (Hunset : dict_get (instance_dict (self w)) "trial_component_arn" = None) :
  let s := sagemaker_session (self w) in
  calls (snd (pipeline_execution_arn list_tags_api w)) =
    CallListTags s PyNone :: calls w
  /\ calls (snd (dataset_artifacts query_api LO conv darg w)) =
    CallQuery s (mkQueryRequest [PyNone] (LineageFilter_make [ARTIFACT] [DATASET])
                   (match darg with Some d => d | None => ASCENDANTS end)
                   false 10) :: calls w
  /\ calls (snd (models query_api LO conv marg w)) =
    CallQuery s (mkQueryRequest [PyNone] (LineageFilter_make [ARTIFACT] [MODEL])
                   (match marg with Some d => d | None => DESCENDANTS end)
                   false 10) :: calls w.
Proof.
  intros s.
  assert (Ha : attr (self w) "trial_component_arn" = PyNone)
    by (unfold attr; rewrite Hunset; reflexivity).
  split; [|split].
  - rewrite pipeline_execution_arn_run, Ha.
    destruct (list_tags_api _ _); reflexivity.
  - destruct darg as [d|];
      [|change (dataset_artifacts query_api LO conv None w)
         with (dataset_artifacts query_api LO conv (Some ASCENDANTS) w)];
      rewrite dataset_artifacts_run; unfold artifact_request; rewrite Ha;
      destruct (query_api _ _); reflexivity.
  - destruct marg as [d|];
      [|change (models query_api LO conv None w)
         with (models query_api LO conv (Some DESCENDANTS) w)];
      rewrite models_run; unfold artifact_request; rewrite Ha;
      destruct (query_api _ _); reflexivity.
Qed.

Lemma query_methods_unset_arn_witness :
  dict_get (instance_dict (self w_empty)) "trial_component_arn" = None
  /\ calls (snd (models engine0 string vertex_arn None w_empty)) =
     [CallQuery sess0 (mkQueryRequest [PyNone]
                         (LineageFilter_make [ARTIFACT] [MODEL])
                         DESCENDANTS false 10)].
Proof.
  split; [reflexivity|].
  apply (proj2 (proj2 (query_methods_unset_arn (fun _ _ => Ok []) engine0
                         string vertex_arn None None w_empty eq_refl))).
Defined.

(** No caching: calling [dataset_artifacts(d)] (or [models(d)]) twice in a
    row sends the traversal request to the lineage engine again: the call
    log holds the same request twice. *)
Theorem artifact_queries_requery
    (query_api : Session -> QueryRequest -> Outcome LineageQueryResult)
    (LO : Type) (conv : Vertex -> LO) (d : LineageQueryDirectionEnum)
    (w : World) :
  let s := sagemaker_session (self w) in
  let ds := dataset_artifacts query_api LO conv (Some d) in
  let ms := models query_api LO conv (Some d) in
  calls (snd (ds (snd (ds w)))) =
     CallQuery s (artifact_request (self w) DATASET d)
       :: CallQuery s (artifact_request (self w) DATASET d) :: calls w
  /\ calls (snd (ms (snd (ms w)))) =
     CallQuery s (artifact_request (self w) MODEL d)
       :: CallQuery s (artifact_request (self w) MODEL d) :: calls w.
Proof.
  intros s ds ms. unfold ds, ms.
  rewrite !dataset_artifacts_run, !models_run. simpl.
  rewrite ?dataset_artifacts_run, ?models_run. simpl.
  repeat split; destruct (query_api _ _); reflexivity.
Qed.

(** Every member of [_boto_update_members] and [_boto_delete_members] is
    an attribute the class declares, so reading it from any record never
    raises AttributeError: it yields the record's value, [None] if unset. *)
Theorem boto_members_declared (r : LineageTrialComponent) (m : string)
    (Hm : In m _boto_update_members \/ In m _boto_delete_members) :
  getattr_val r m = Ok (attr r m).
Proof.
  unfold getattr_val, attr.
  destruct (dict_get (instance_dict r) m); [reflexivity|].
  destruct Hm as [Hm|Hm]; simpl in Hm;
    repeat (destruct Hm as [<-|Hm]; [reflexivity|]); contradiction.
Qed.

Lemma boto_members_declared_witness :
  (In "parameters_to_remove" _boto_update_members
   \/ In "parameters_to_remove" _boto_delete_members)
  /\ getattr_val tc0 "parameters_to_remove" = Ok PyNone.
Proof.
  assert (H : In "parameters_to_remove" _boto_update_members
              \/ In "parameters_to_remove" _boto_delete_members)
    by (left; simpl; tauto).
  split; [exact H|].
  apply (boto_members_declared tc0 "parameters_to_remove" H).
Defined.

(** [load(n, s)] passes [_boto_load_method] and [trial_component_name=n]
    to [_construct]: one describe_trial_component call with payload
    {trial_component_name: n} on [s], or on the default session when [s]
    is omitted; a failure of that call propagates unchanged. *)
Theorem load_describe_call
    (boto_api : Session -> string -> list (string * PyVal) ->
                Outcome (list (string * PyVal)))
    (default_session : Session) (n : string) (sarg : option Session)
    (w : World) (e : PyExc) :
  let s := match sarg with Some s => s | None => default_session end in
  calls (snd (load boto_api default_session n sarg w)) =
    CallApi s "describe_trial_component" [("trial_component_name", PyStr n)]
      :: calls w
  /\ (boto_api s "describe_trial_component"
        [("trial_component_name", PyStr n)] = Raise e ->
      fst (load boto_api default_session n sarg w) = Raise e).
Proof.
  intros s. rewrite load_run. fold s. split.
  - destruct (boto_api _ _ _); reflexivity.
  - intros He. rewrite He. reflexivity.
Qed.

Lemma load_describe_call_witness :
  remote_service R_denied sess0 "describe_trial_component"
    [("trial_component_name", PyStr "tc-1")] = Raise AccessDeniedException
  /\ fst (load (remote_service R_denied) sess0 "tc-1" None w_empty)
     = Raise AccessDeniedException.
Proof.
  split; [reflexivity|].
  apply (proj2 (load_describe_call (remote_service R_denied) sess0 "tc-1" None
                  w_empty AccessDeniedException)).
  reflexivity.
Defined.
